(** * LedMatrixEffectBox: the WLAN settings header

    A shallow embedding of [wlan_settings.h], the configuration header of the
    LED matrix effect box firmware, and the properties its specification
    states about it.

    The header consists of four string macros, one integer macro and three
    [const IPAddress] globals.  Macros are modelled as the literal they expand
    to, the globals as values of the [IPAddress] model below. *)

From Stdlib Require Import ZArith List String Bool Lia FinFun.
Import ListNotations.

Local Open Scope Z_scope.

(** ** The address type *)

Module IPAddress.

(** Modelled from the spec: the spec has each octet in 0-255 and says no
    more; an argument outside that range is taken modulo 256, as a
    [uint8_t] parameter of the Arduino core's constructor would take it.  No
    declaration of the header has such an argument. *)
Definition to_uint8 (x : Z) : Z := x mod 256.

(** Modelled from the spec: the [IPAddress] class is declared by the Arduino
    core, not by this header; the spec describes its values as 4-byte
    addresses.  The four bytes are kept in the order they are written,
    [b0.b1.b2.b3]. *)
Record t : Type := mk { b0 : Z; b1 : Z; b2 : Z; b3 : Z }.

(** Modelled from the spec: the constructor
    [IPAddress(first, second, third, fourth)] is the Arduino core's, not this
    header's; it yields the 4-byte address of the spec, each argument
    converted by [to_uint8] on the way in. *)
Definition make (first second third fourth : Z) : t :=
  mk (to_uint8 first) (to_uint8 second) (to_uint8 third) (to_uint8 fourth).

(** The bytes of an address, first octet first. *)
Definition octets (ip : t) : list Z := [b0 ip; b1 ip; b2 ip; b3 ip].

(** Modelled from the spec: the octet at a position, as the Arduino core's
    [operator[](int) const] reads it; an index outside the array has no
    defined result. *)
Definition index (ip : t) (i : Z) : option Z :=
  if (0 <=? i) && (i <? 4) then nth_error (octets ip) (Z.to_nat i) else None.

(** Modelled from the spec: equality of addresses, as the Arduino core's
    [operator==(const IPAddress&) const] decides it: both hold the same four
    bytes. *)
Definition eqb (x y : t) : bool :=
  (b0 x =? b0 y) && (b1 x =? b1 y) && (b2 x =? b2 y) && (b3 x =? b3 y).

(** The address as one 32-bit number in network order, first octet in the
    most significant byte. *)
Definition network_value (ip : t) : Z :=
  Z.lor (Z.shiftl (b0 ip) 24)
    (Z.lor (Z.shiftl (b1 ip) 16) (Z.lor (Z.shiftl (b2 ip) 8) (b3 ip))).

(** Octet-wise bitwise AND of two addresses. *)
Definition land (x y : t) : t :=
  mk (Z.land (b0 x) (b0 y)) (Z.land (b1 x) (b1 y))
     (Z.land (b2 x) (b2 y)) (Z.land (b3 x) (b3 y)).

(** An address whose bytes all fit a [uint8_t]. *)
Definition wf (ip : t) : Prop :=
  Forall (fun o => 0 <= o <= 255) (octets ip).

End IPAddress.

(** ** The header *)

Definition OTA_PASSWORD : string := "PROVIDE YOUR PASSWORD FOR OTA UPDATE"%string.

(* router settings (can be ignored if OTA is disabled) *)
Definition ROUTER_SSID : string := "SSID OF YOUR ROUTER"%string.
Definition ROUTER_PASSWD : string := "PASSWORD OF YOUR ROUTER"%string.
Definition PRODUCT_NAME : string := "LedMatrixEffectBox_"%string.
Definition MAX_NUM_OF_WIFI_SSID_TRIAL_TIMEOUT_IN_500MS : Z := 10. (* 6 sec *)

Definition G_ownStaticIP : IPAddress.t := IPAddress.make 192 168 8 205.
Definition G_gatewayIP : IPAddress.t := IPAddress.make 192 168 8 1.
Definition G_maskIP : IPAddress.t := IPAddress.make 255 255 0 0.

(** The unit of the retry count, in milliseconds, as the macro's name has
    it. *)
Definition TRIAL_PERIOD_MS : Z := 500.

(** The total wait the comment next to the retry count announces, in
    milliseconds: "6 sec". *)
Definition ANNOTATED_TOTAL_WAIT_MS : Z := 6 * 1000.

(** The total wait the retry count amounts to. *)
Definition total_wait_ms : Z :=
  MAX_NUM_OF_WIFI_SSID_TRIAL_TIMEOUT_IN_500MS * TRIAL_PERIOD_MS.

(** ** The header as a list of declarations *)

(** What a declaration of the header binds its name to: the literal a macro
    expands to, or the constructor call that initialises a global. *)
Inductive Initializer : Type :=
| StringLiteral (s : string)
| IntLiteral (n : Z)
| IPAddressCall (first second third fourth : Z).

Inductive DeclKind : Type := MacroDefine | ConstGlobal.

Record Declaration : Type := mkDecl {
  decl_kind : DeclKind;
  decl_name : string;
  decl_init : Initializer
}.

(** The eight declarations of [wlan_settings.h], in source order. *)
Definition wlan_settings_h : list Declaration :=
  [ mkDecl MacroDefine "OTA_PASSWORD"
      (StringLiteral "PROVIDE YOUR PASSWORD FOR OTA UPDATE");
    mkDecl MacroDefine "ROUTER_SSID" (StringLiteral "SSID OF YOUR ROUTER");
    mkDecl MacroDefine "ROUTER_PASSWD"
      (StringLiteral "PASSWORD OF YOUR ROUTER");
    mkDecl MacroDefine "PRODUCT_NAME" (StringLiteral "LedMatrixEffectBox_");
    mkDecl MacroDefine "MAX_NUM_OF_WIFI_SSID_TRIAL_TIMEOUT_IN_500MS"
      (IntLiteral 10);
    mkDecl ConstGlobal "G_ownStaticIP" (IPAddressCall 192 168 8 205);
    mkDecl ConstGlobal "G_gatewayIP" (IPAddressCall 192 168 8 1);
    mkDecl ConstGlobal "G_maskIP" (IPAddressCall 255 255 0 0) ].

(** The value an initialiser denotes. *)
Inductive Value : Type :=
| VString (s : string)
| VInt (n : Z)
| VAddress (ip : IPAddress.t).

Definition eval_init (i : Initializer) : Value :=
  match i with
  | StringLiteral s => VString s
  | IntLiteral n => VInt n
  | IPAddressCall a b c d => VAddress (IPAddress.make a b c d)
  end.

(** Lookup of a name among the declarations; the first one wins. *)
Fixpoint lookup_decl (name : string) (ds : list Declaration)
  : option Declaration :=
  match ds with
  | [] => None
  | d :: rest =>
      if String.eqb name (decl_name d) then Some d else lookup_decl name rest
  end.

(** The fields the data model of the specification lists. *)
Inductive Field : Type :=
| OtaPassword
| RouterSsid
| RouterPassword
| ProductName
| WifiRetryTimeoutCount
| StaticIpAddress
| GatewayIpAddress
| SubnetMask.

Definition all_fields : list Field :=
  [ OtaPassword; RouterSsid; RouterPassword; ProductName;
    WifiRetryTimeoutCount; StaticIpAddress; GatewayIpAddress; SubnetMask ].

(** The semantic types of the data model. *)
Inductive SemanticType : Type := TString | TCount | TAddress.

Definition field_type (f : Field) : SemanticType :=
  match f with
  | OtaPassword | RouterSsid | RouterPassword | ProductName => TString
  | WifiRetryTimeoutCount => TCount
  | StaticIpAddress | GatewayIpAddress | SubnetMask => TAddress
  end.

Definition init_type (i : Initializer) : SemanticType :=
  match i with
  | StringLiteral _ => TString
  | IntLiteral _ => TCount
  | IPAddressCall _ _ _ _ => TAddress
  end.

(** The name the header gives each field. *)
Definition field_name (f : Field) : string :=
  match f with
  | OtaPassword => "OTA_PASSWORD"
  | RouterSsid => "ROUTER_SSID"
  | RouterPassword => "ROUTER_PASSWD"
  | ProductName => "PRODUCT_NAME"
  | WifiRetryTimeoutCount => "MAX_NUM_OF_WIFI_SSID_TRIAL_TIMEOUT_IN_500MS"
  | StaticIpAddress => "G_ownStaticIP"
  | GatewayIpAddress => "G_gatewayIP"
  | SubnetMask => "G_maskIP"
  end.

(** The field a declared name stands for, if any. *)
Definition field_of_name (name : string) : option Field :=
  find (fun f => String.eqb name (field_name f)) all_fields.

(** ** The configuration at run time *)

(** What a translation unit that includes the header sees: the expansions of
    the five macros and the three constant objects. *)
Record Settings : Type := mkSettings {
  ota_password : string;
  router_ssid : string;
  router_passwd : string;
  product_name : string;
  wifi_trial_timeout : Z;
  own_static_ip : IPAddress.t;
  gateway_ip : IPAddress.t;
  mask_ip : IPAddress.t
}.

(** The values fixed when the firmware is built. *)
Definition wlan_settings : Settings :=
  mkSettings OTA_PASSWORD ROUTER_SSID ROUTER_PASSWD PRODUCT_NAME
    MAX_NUM_OF_WIFI_SSID_TRIAL_TIMEOUT_IN_500MS
    G_ownStaticIP G_gatewayIP G_maskIP.

(** The value of a field of the data model. *)
Definition field_value (f : Field) (s : Settings) : Value :=
  match f with
  | OtaPassword => VString (ota_password s)
  | RouterSsid => VString (router_ssid s)
  | RouterPassword => VString (router_passwd s)
  | ProductName => VString (product_name s)
  | WifiRetryTimeoutCount => VInt (wifi_trial_timeout s)
  | StaticIpAddress => VAddress (own_static_ip s)
  | GatewayIpAddress => VAddress (gateway_ip s)
  | SubnetMask => VAddress (mask_ip s)
  end.

(** The three globals. *)
Inductive Global : Type := OwnStaticIP | GatewayIP | MaskIP.

(** ** Loading the configuration *)

(** The values of a configuration before they are checked: the addresses are
    still the four integers written in the constructor call. *)
Record RawSettings : Type := mkRaw {
  raw_ota_password : string;
  raw_router_ssid : string;
  raw_router_passwd : string;
  raw_product_name : string;
  raw_trial_timeout : Z;
  raw_own_static_ip : Z * Z * Z * Z;
  raw_gateway_ip : Z * Z * Z * Z;
  raw_mask_ip : Z * Z * Z * Z
}.

(** The raw values the header writes down. *)
Definition wlan_settings_raw : RawSettings :=
  mkRaw OTA_PASSWORD ROUTER_SSID ROUTER_PASSWD PRODUCT_NAME
    MAX_NUM_OF_WIFI_SSID_TRIAL_TIMEOUT_IN_500MS
    (192, 168, 8, 205) (192, 168, 8, 1) (255, 255, 0, 0).

(** The initialiser a raw configuration writes for a field. *)
Definition raw_init (f : Field) (r : RawSettings) : Initializer :=
  let call (q : Z * Z * Z * Z) :=
    let '(a, b, c, d) := q in IPAddressCall a b c d in
  match f with
  | OtaPassword => StringLiteral (raw_ota_password r)
  | RouterSsid => StringLiteral (raw_router_ssid r)
  | RouterPassword => StringLiteral (raw_router_passwd r)
  | ProductName => StringLiteral (raw_product_name r)
  | WifiRetryTimeoutCount => IntLiteral (raw_trial_timeout r)
  | StaticIpAddress => call (raw_own_static_ip r)
  | GatewayIpAddress => call (raw_gateway_ip r)
  | SubnetMask => call (raw_mask_ip r)
  end.

Definition quad_octets (q : Z * Z * Z * Z) : list Z :=
  let '(a, b, c, d) := q in [a; b; c; d].

Definition raw_octets (r : RawSettings) : list Z :=
  quad_octets (raw_own_static_ip r) ++ quad_octets (raw_gateway_ip r)
    ++ quad_octets (raw_mask_ip r).

Inductive ConfigError : Type :=
| OctetOutOfRange (g : Global) (octet : Z)
| RetryCountNotPositive (count : Z).

Definition octet_in_range (o : Z) : bool := (0 <=? o) && (o <=? 255).

(** Modelled from the spec: the header has no loading step; the spec names
    the only plausible validation, at configuration-load time: reject an IP
    octet outside 0-255 and a zero or negative retry-timeout count. *)
Definition check_address (g : Global) (q : Z * Z * Z * Z)
  : ConfigError + IPAddress.t :=
  match find (fun o => negb (octet_in_range o)) (quad_octets q) with
  | Some o => inl (OctetOutOfRange g o)
  | None => let '(a, b, c, d) := q in inr (IPAddress.make a b c d)
  end.

(** Modelled from the spec: the retry-timeout count must be positive. *)
Definition check_retry_count (n : Z) : ConfigError + Z :=
  if 0 <? n then inr n else inl (RetryCountNotPositive n).

Definition and_then {E A B : Type} (r : E + A) (k : A -> E + B) : E + B :=
  match r with
  | inl e => inl e
  | inr a => k a
  end.

(** Modelled from the spec: the configuration-load step, which either
    surfaces a configuration error or yields the settings every later
    operation reads. *)
Definition load_config (r : RawSettings) : ConfigError + Settings :=
  and_then (check_address OwnStaticIP (raw_own_static_ip r)) (fun own =>
  and_then (check_address GatewayIP (raw_gateway_ip r)) (fun gw =>
  and_then (check_address MaskIP (raw_mask_ip r)) (fun mask =>
  and_then (check_retry_count (raw_trial_timeout r)) (fun n =>
  inr (mkSettings (raw_ota_password r) (raw_router_ssid r)
         (raw_router_passwd r) (raw_product_name r) n own gw mask))))).

(** ** Subnets *)

(** The 32-bit mask with [n] leading one bits. *)
Definition prefix_mask (n : Z) : Z := Z.shiftl (Z.ones n) (32 - n).

(** A 32-bit value made of a run of ones followed only by zeros. *)
Definition contiguous_mask (v : Z) : Prop :=
  exists n, 0 <= n <= 32 /\
    forall i, Z.testbit v i = (32 - n <=? i) && (i <? 32).

(** The network part of an address under a mask. *)
Definition network_of (ip mask : IPAddress.t) : IPAddress.t :=
  IPAddress.land ip mask.

Definition same_subnet (x y mask : IPAddress.t) : bool :=
  IPAddress.eqb (network_of x mask) (network_of y mask).

(** ** String constants and the features that use them *)

Inductive Feature : Type := OTA | WiFi.

Inductive StringConstant : Type :=
| K_OTA_PASSWORD | K_ROUTER_SSID | K_ROUTER_PASSWD | K_PRODUCT_NAME.

Definition string_constant (k : StringConstant) : string :=
  match k with
  | K_OTA_PASSWORD => OTA_PASSWORD
  | K_ROUTER_SSID => ROUTER_SSID
  | K_ROUTER_PASSWD => ROUTER_PASSWD
  | K_PRODUCT_NAME => PRODUCT_NAME
  end.

(** * Properties *)

(** ** Addresses *)

Lemma to_uint8_range (x : Z) : 0 <= IPAddress.to_uint8 x <= 255.
Proof.
  unfold IPAddress.to_uint8.
  pose proof (Z.mod_pos_bound x 256 eq_refl). lia.
Qed.

Lemma to_uint8_small (x : Z) : 0 <= x <= 255 -> IPAddress.to_uint8 x = x.
Proof.
  intros Hx. unfold IPAddress.to_uint8. apply Z.mod_small. lia.
Qed.

(** Whatever the arguments, the constructor yields four bytes. *)
Lemma make_wf (a b c d : Z) : IPAddress.wf (IPAddress.make a b c d).
Proof.
  unfold IPAddress.wf, IPAddress.make, IPAddress.octets; simpl.
  repeat constructor; apply to_uint8_range.
Qed.

Lemma octets_length (ip : IPAddress.t) :
  List.length (IPAddress.octets ip) = 4%nat.
Proof. reflexivity. Qed.

(** Arguments that fit a byte are stored as written. *)
Lemma make_octets (a b c d : Z) :
  Forall (fun o => 0 <= o <= 255) [a; b; c; d] ->
  IPAddress.octets (IPAddress.make a b c d) = [a; b; c; d].
Proof.
  intros H.
  inversion_clear H as [|? ? Ha H1].
  inversion_clear H1 as [|? ? Hb H2].
  inversion_clear H2 as [|? ? Hc H3].
  inversion_clear H3 as [|? ? Hd _].
  unfold IPAddress.make, IPAddress.octets; simpl.
  now rewrite !to_uint8_small.
Qed.

Lemma eqb_eq (x y : IPAddress.t) : IPAddress.eqb x y = true <-> x = y.
Proof.
  destruct x as [x0 x1 x2 x3], y as [y0 y1 y2 y3].
  unfold IPAddress.eqb; simpl.
  rewrite !andb_true_iff, !Z.eqb_eq. split.
  - intros [[[-> ->] ->] ->]. reflexivity.
  - intros H. injection H as -> -> -> ->. auto.
Qed.

(** C1: the retry count times 500 ms is 5000 ms, which is not the 6000 ms
    ("6 sec") that the comment next to the constant announces. *)
Theorem total_wait_differs_from_annotation :
  total_wait_ms = 5000 /\ ANNOTATED_TOTAL_WAIT_MS = 6000
  /\ total_wait_ms <> ANNOTATED_TOTAL_WAIT_MS.
Proof.
  unfold total_wait_ms, ANNOTATED_TOTAL_WAIT_MS, TRIAL_PERIOD_MS,
    MAX_NUM_OF_WIFI_SSID_TRIAL_TIMEOUT_IN_500MS.
  repeat split; lia.
Qed.

(** C2: each of G_ownStaticIP, G_gatewayIP and G_maskIP decomposes into
    exactly four octets, each in [0, 255]; they are the four numbers written
    in the header. *)
Theorem ip_constants_are_four_octets :
  Forall (fun ip => List.length (IPAddress.octets ip) = 4%nat
                    /\ Forall (fun o => 0 <= o <= 255) (IPAddress.octets ip))
    [G_ownStaticIP; G_gatewayIP; G_maskIP]
  /\ IPAddress.octets G_ownStaticIP = [192; 168; 8; 205]
  /\ IPAddress.octets G_gatewayIP = [192; 168; 8; 1]
  /\ IPAddress.octets G_maskIP = [255; 255; 0; 0].
Proof.
  assert (Hwf : forall a b c d,
             List.length (IPAddress.octets (IPAddress.make a b c d)) = 4%nat
             /\ Forall (fun o => 0 <= o <= 255)
                  (IPAddress.octets (IPAddress.make a b c d))).
  { intros a b c d. split; [apply octets_length | apply make_wf]. }
  split; [| split; [| split]].
  - unfold G_ownStaticIP, G_gatewayIP, G_maskIP.
    apply Forall_cons; [apply Hwf|].
    apply Forall_cons; [apply Hwf|].
    apply Forall_cons; [apply Hwf|].
    apply Forall_nil.
  - apply make_octets; repeat (apply Forall_cons; [lia|]); apply Forall_nil.
  - apply make_octets; repeat (apply Forall_cons; [lia|]); apply Forall_nil.
  - apply make_octets; repeat (apply Forall_cons; [lia|]); apply Forall_nil.
Qed.

(** C3: the retry timeout count is a positive integer, hence also a
    non-negative one. *)
Theorem retry_count_positive :
  0 < MAX_NUM_OF_WIFI_SSID_TRIAL_TIMEOUT_IN_500MS
  /\ 0 <= MAX_NUM_OF_WIFI_SSID_TRIAL_TIMEOUT_IN_500MS.
Proof.
  unfold MAX_NUM_OF_WIFI_SSID_TRIAL_TIMEOUT_IN_500MS. lia.
Qed.

(** C10: the static address of the device is not the address of the
    gateway: the fourth octets are 205 and 1. *)
Theorem own_ip_differs_from_gateway :
  IPAddress.eqb G_ownStaticIP G_gatewayIP = false
  /\ G_ownStaticIP <> G_gatewayIP
  /\ IPAddress.index G_ownStaticIP 3 = Some 205
  /\ IPAddress.index G_gatewayIP 3 = Some 1.
Proof.
  assert (Hne : IPAddress.eqb G_ownStaticIP G_gatewayIP = false)
    by reflexivity.
  repeat split; try reflexivity.
  intros Heq. apply eqb_eq in Heq. congruence.
Qed.

(** ** Strings *)

Lemma string_constant_nonempty (k : StringConstant) :
  string_constant k <> EmptyString.
Proof. destruct k; discriminate. Qed.

Section Features.

Variable feature_of : StringConstant -> Feature.
Variable enabled : Feature -> bool.

(** C5: whichever feature a string constant belongs to, if that feature is
    enabled then the constant is a non-empty string. *)
Theorem strings_nonempty_when_enabled (k : StringConstant) :
  enabled (feature_of k) = true ->
  string_constant k <> EmptyString /\ (0 < String.length (string_constant k))%nat.
Proof.
  intros _. split.
  - apply string_constant_nonempty.
  - destruct k; simpl; lia.
Qed.

End Features.

(** The OTA password, with OTA enabled. *)
Lemma strings_nonempty_when_enabled_witness :
  (fun _ : Feature => true) ((fun _ : StringConstant => OTA) K_OTA_PASSWORD) = true
  /\ string_constant K_OTA_PASSWORD <> EmptyString
  /\ (0 < String.length (string_constant K_OTA_PASSWORD))%nat.
Proof.
  split; [reflexivity|].
  apply (strings_nonempty_when_enabled (fun _ => OTA) (fun _ => true)
           K_OTA_PASSWORD).
  reflexivity.
Defined.

(** ** The subnet *)

Lemma prefix_mask_bits (n i : Z) :
  0 <= n <= 32 ->
  Z.testbit (prefix_mask n) i = (32 - n <=? i) && (i <? 32).
Proof.
  intros Hn. unfold prefix_mask.
  destruct (Z.lt_ge_cases i 0) as [Hneg | Hpos].
  - rewrite Z.testbit_neg_r by assumption.
    symmetry. apply andb_false_iff. left. apply Z.leb_gt. lia.
  - rewrite Z.shiftl_spec by assumption.
    rewrite Z.testbit_ones by lia.
    destruct (Z.leb_spec 0 (i - (32 - n))), (Z.leb_spec (32 - n) i),
      (Z.ltb_spec (i - (32 - n)) n), (Z.ltb_spec i 32);
      simpl; trivial; lia.
Qed.

Lemma prefix_mask_contiguous (n : Z) :
  0 <= n <= 32 -> contiguous_mask (prefix_mask n).
Proof.
  intros Hn. exists n. split; [assumption|].
  intros i. now apply prefix_mask_bits.
Qed.

(** In a contiguous mask no zero bit sits above a one bit. *)
Lemma contiguous_mask_upward (v i j : Z) :
  contiguous_mask v -> i <= j < 32 ->
  Z.testbit v i = true -> Z.testbit v j = true.
Proof.
  intros [n [Hn Hbits]] Hij. rewrite !Hbits, !andb_true_iff.
  rewrite !Z.leb_le, !Z.ltb_lt. lia.
Qed.

(** C9: the mask 255.255.0.0 is, as a 32-bit value, sixteen one bits followed
    by sixteen zero bits, and under it the device address and the gateway
    address have the same network address, 192.168.0.0. *)
Theorem mask_contiguous_and_same_subnet :
  IPAddress.octets G_maskIP = [255; 255; 0; 0]
  /\ IPAddress.network_value G_maskIP = prefix_mask 16
  /\ contiguous_mask (IPAddress.network_value G_maskIP)
  /\ (forall i, Z.testbit (IPAddress.network_value G_maskIP) i
                = (16 <=? i) && (i <? 32))
  /\ network_of G_ownStaticIP G_maskIP = IPAddress.make 192 168 0 0
  /\ network_of G_gatewayIP G_maskIP = IPAddress.make 192 168 0 0
  /\ same_subnet G_ownStaticIP G_gatewayIP G_maskIP = true
  /\ Z.land (IPAddress.network_value G_ownStaticIP)
            (IPAddress.network_value G_maskIP)
     = Z.land (IPAddress.network_value G_gatewayIP)
              (IPAddress.network_value G_maskIP).
Proof.
  assert (Hv : IPAddress.network_value G_maskIP = prefix_mask 16)
    by reflexivity.
  split; [reflexivity|]. split; [exact Hv|]. split; [|split].
  - rewrite Hv. apply prefix_mask_contiguous. lia.
  - intros i. rewrite Hv. rewrite prefix_mask_bits by lia. reflexivity.
  - repeat split; reflexivity.
Qed.

(** ** The declarations of the header *)

Lemma all_fields_complete (f : Field) : In f all_fields.
Proof. destruct f; simpl; tauto. Qed.

Lemma field_name_injective (f g : Field) :
  field_name f = field_name g -> f = g.
Proof. destruct f, g; simpl; intros H; try reflexivity; discriminate H. Qed.

Lemma all_fields_nodup : NoDup all_fields.
Proof.
  unfold all_fields.
  repeat (apply NoDup_cons; [simpl; intuition discriminate|]).
  apply NoDup_nil.
Qed.

Lemma field_of_name_field_name (f : Field) :
  field_of_name (field_name f) = Some f.
Proof. destruct f; reflexivity. Qed.

(** A declared name stands for a field only if it is that field's name. *)
Lemma field_of_name_sound (name : string) (f : Field) :
  field_of_name name = Some f -> name = field_name f.
Proof.
  unfold field_of_name. intros H.
  apply find_some in H. destruct H as [_ H].
  now apply String.eqb_eq.
Qed.

(** C6: the declarations of the header are, one for one and in order, the
    eight fields of the data model (OTA password, router SSID, router
    password, product name, retry timeout count, device IP, gateway IP,
    subnet mask): every declaration is one of these fields, no field is
    declared twice or left out, each has the semantic type of its field and
    the value the firmware reads. *)
Theorem header_defines_exactly_the_fields :
  map (fun d => field_of_name (decl_name d)) wlan_settings_h
    = map Some all_fields
  /\ List.length wlan_settings_h = 8%nat
  /\ NoDup (map decl_name wlan_settings_h)
  /\ NoDup all_fields
  /\ (forall f : Field, In f all_fields)
  /\ map (fun d => init_type (decl_init d)) wlan_settings_h
       = map field_type all_fields
  /\ (forall f : Field,
        option_map (fun d => eval_init (decl_init d))
          (lookup_decl (field_name f) wlan_settings_h)
        = Some (field_value f wlan_settings)).
Proof.
  split; [reflexivity|]. split; [reflexivity|]. split.
  { change (map decl_name wlan_settings_h) with (map field_name all_fields).
    apply Injective_map_NoDup.
    - intros f g. apply field_name_injective.
    - apply all_fields_nodup. }
  split; [apply all_fields_nodup|].
  split; [apply all_fields_complete|].
  split; [reflexivity|].
  intros f. destruct f; reflexivity.
Qed.

(** ** Loading *)

Lemma octet_in_range_spec (o : Z) :
  octet_in_range o = true <-> 0 <= o <= 255.
Proof.
  unfold octet_in_range.
  rewrite andb_true_iff, !Z.leb_le. tauto.
Qed.

Lemma check_address_error (g : Global) (q : Z * Z * Z * Z) :
  (exists e, check_address g q = inl e)
  <-> Exists (fun o => ~ 0 <= o <= 255) (quad_octets q).
Proof.
  unfold check_address.
  destruct (find (fun o => negb (octet_in_range o)) (quad_octets q))
    as [o|] eqn:Hfind.
  - apply find_some in Hfind. destruct Hfind as [Hin Hbad].
    split; [intros _ | intros _; eexists; reflexivity].
    apply Exists_exists. exists o. split; [assumption|].
    rewrite <- octet_in_range_spec.
    apply negb_true_iff in Hbad. congruence.
  - split.
    + destruct q as [[[a b] c] d]. intros [e He]. discriminate He.
    + intros Hex. apply Exists_exists in Hex.
      destruct Hex as [o [Hin Hbad]]. exfalso. apply Hbad.
      apply octet_in_range_spec.
      pose proof (find_none _ _ Hfind o Hin) as Hok.
      now apply negb_false_iff in Hok.
Qed.

(** An address that passes the check holds the octets as written. *)
Lemma check_address_value (g : Global) (q : Z * Z * Z * Z)
      (ip : IPAddress.t) :
  check_address g q = inr ip -> IPAddress.octets ip = quad_octets q.
Proof.
  unfold check_address.
  destruct (find (fun o => negb (octet_in_range o)) (quad_octets q))
    as [o|] eqn:Hfind; [discriminate|].
  destruct q as [[[a b] c] d]. intros H. injection H as <-.
  apply make_octets. apply Forall_forall. intros o Hin.
  apply octet_in_range_spec.
  pose proof (find_none _ _ Hfind o Hin) as Hok.
  now apply negb_false_iff in Hok.
Qed.

Lemma check_retry_count_error (n : Z) :
  (exists e, check_retry_count n = inl e) <-> n <= 0.
Proof.
  unfold check_retry_count. destruct (Z.ltb_spec 0 n) as [Hpos | Hle].
  - split; [intros [e He]; discriminate He | lia].
  - split; [intros _; assumption | intros _; eexists; reflexivity].
Qed.

Lemma load_config_error (r : RawSettings) :
  (exists e, load_config r = inl e)
  <-> (Exists (fun o => ~ 0 <= o <= 255) (raw_octets r)
       \/ raw_trial_timeout r <= 0).
Proof.
  unfold raw_octets. rewrite !Exists_app.
  rewrite <- (check_address_error OwnStaticIP (raw_own_static_ip r)).
  rewrite <- (check_address_error GatewayIP (raw_gateway_ip r)).
  rewrite <- (check_address_error MaskIP (raw_mask_ip r)).
  rewrite <- (check_retry_count_error (raw_trial_timeout r)).
  unfold load_config, and_then.
  destruct (check_address OwnStaticIP (raw_own_static_ip r)) as [e1|own].
  { split; [intros _ | intros _; eexists; reflexivity].
    left. left. eexists; reflexivity. }
  destruct (check_address GatewayIP (raw_gateway_ip r)) as [e2|gw].
  { split; [intros _ | intros _; eexists; reflexivity].
    left. right. left. eexists; reflexivity. }
  destruct (check_address MaskIP (raw_mask_ip r)) as [e3|mask].
  { split; [intros _ | intros _; eexists; reflexivity].
    left. right. right. eexists; reflexivity. }
  destruct (check_retry_count (raw_trial_timeout r)) as [e4|n].
  { split; [intros _ | intros _; eexists; reflexivity].
    right. eexists; reflexivity. }
  split.
  - intros [e He]. discriminate He.
  - intros [[[e He] | [[e He] | [e He]]] | [e He]]; discriminate He.
Qed.

Lemma wlan_settings_raw_matches_header (f : Field) :
  option_map decl_init (lookup_decl (field_name f) wlan_settings_h)
  = Some (raw_init f wlan_settings_raw).
Proof. destruct f; reflexivity. Qed.

(** C4: loading a configuration raises a configuration error exactly when
    some IP octet is outside 0-255 or the retry count is not positive;
    otherwise it yields the settings.  On the values of this header it
    raises none and yields the settings the firmware reads. *)
Theorem load_config_validates :
  (forall r : RawSettings,
     (exists e, load_config r = inl e)
     <-> (Exists (fun o => ~ 0 <= o <= 255) (raw_octets r)
          \/ raw_trial_timeout r <= 0))
  /\ (forall r : RawSettings,
        (exists s, load_config r = inr s)
        <-> (Forall (fun o => 0 <= o <= 255) (raw_octets r)
             /\ 0 < raw_trial_timeout r))
  /\ (forall f : Field,
        option_map decl_init (lookup_decl (field_name f) wlan_settings_h)
        = Some (raw_init f wlan_settings_raw))
  /\ load_config wlan_settings_raw = inr wlan_settings.
Proof.
  split; [exact load_config_error|]. split; [|split].
  - intros r. pose proof (load_config_error r) as Herr.
    destruct (load_config r) as [e|s] eqn:Hload.
    + split; [intros [s Hs]; discriminate Hs|].
      intros [Hall Hpos]. exfalso.
      destruct Herr as [Herr _].
      destruct (Herr (ex_intro _ e eq_refl)) as [Hex | Hle]; [|lia].
      apply Exists_exists in Hex. destruct Hex as [o [Hin Hbad]].
      apply Hbad. exact (proj1 (Forall_forall _ _) Hall o Hin).
    + split; [intros _ | intros _; eexists; reflexivity].
      destruct Herr as [_ Herr]. split.
      * apply Forall_forall. intros o Hin.
        destruct (Z.le_gt_cases 0 o) as [H0|H0],
                 (Z.le_gt_cases o 255) as [H1|H1]; try lia.
        all: exfalso;
          assert (Hex : exists e, @inr ConfigError _ s = inl e)
            by (apply Herr; left; apply Exists_exists; exists o;
                split; [assumption | lia]);
          destruct Hex as [e He]; discriminate He.
      * destruct (Z.lt_ge_cases 0 (raw_trial_timeout r)) as [Hp|Hn];
          [assumption|].
        exfalso.
        assert (Hex : exists e, @inr ConfigError _ s = inl e)
          by (apply Herr; right; lia).
        destruct Hex as [e He]; discriminate He.
  - exact wlan_settings_raw_matches_header.
  - reflexivity.
Qed.
